(** * ai-reading-list-backend: the [/summarize] endpoint of [main.py]

    A shallow embedding of [scrape_article_text] and [summarize] from
    [src/main.py], and the properties of the specification that are
    checked against it.

    Conventions of the embedding.
    - A Python [str] is a [string]; a character is a code point below 256.
    - Calls into third-party packages ([requests], [bs4], [flask],
      [google.generativeai]) are oracles of an environment; what they
      return or raise is an input of the model.
    - [print] calls only log and are left out. *)

From Stdlib Require Import String Ascii List ZArith Bool Lia.
Import ListNotations.
Set Warnings "-register-all".
Local Open Scope string_scope.
Local Open Scope list_scope.

(** ** Python strings *)

Module PyStr.

(** [str.isspace] on one character, for the code points below 256:
    TAB, LF, VT, FF, CR, FS, GS, RS, US, SPACE, NEL and NBSP. *)
Definition is_space (c : ascii) : bool :=
  match c with
  | "009" | "010" | "011" | "012" | "013"
  | "028" | "029" | "030" | "031" | " "
  | "133" | "160" => true
  | _ => false
  end%char.

Definition is_empty (s : string) : bool :=
  match s with EmptyString => true | String _ _ => false end.

(** [sep.join(l)]. *)
Fixpoint join (sep : string) (l : list string) : string :=
  match l with
  | [] => ""
  | [x] => x
  | x :: tl => x ++ sep ++ join sep tl
  end.

(** The scanning loop of [s.split()] (no separator given): [acc] holds the
    characters of the word being read. *)
Fixpoint split_from (acc s : string) : list string :=
  match s with
  | "" => if is_empty acc then [] else [acc]
  | String c r =>
      if is_space c
      then (if is_empty acc then split_from "" r else acc :: split_from "" r)
      else split_from (acc ++ String c "") r
  end.

(** [s.split()]. *)
Definition split (s : string) : list string := split_from "" s.

(** [s.lstrip()], [s.rstrip()] and [s.strip()]. *)
Fixpoint lstrip (s : string) : string :=
  match s with
  | "" => ""
  | String c r => if is_space c then lstrip r else s
  end.

Fixpoint rstrip (s : string) : string :=
  match s with
  | "" => ""
  | String c r =>
      match rstrip r with
      | "" => if is_space c then "" else String c ""
      | r' => String c r'
      end
  end.

Definition strip (s : string) : string := rstrip (lstrip s).

(** [needle in hay] for two strings. *)
Fixpoint contains (needle hay : string) : bool :=
  prefix needle hay ||
  match hay with
  | "" => false
  | String _ r => contains needle r
  end.

(** A string without whitespace, and a word: a non-empty such string. *)
Fixpoint no_space (s : string) : bool :=
  match s with
  | "" => true
  | String c r => negb (is_space c) && no_space r
  end.

Definition is_word (w : string) : bool := negb (is_empty w) && no_space w.

End PyStr.

(** ** Exceptions and effects *)

(** The exception classes the handler can meet.  All of them derive from
    [Exception]; the first five derive from
    [requests.exceptions.RequestException]. *)
Inductive exn : Type :=
| ConnectionError
| Timeout
| MissingSchema
| InvalidURL
| HTTPError (status : Z)
| BadRequest
| UnsupportedMediaType
| TypeError
| KeyError
| ValueError
| OtherError (what : string).

Definition is_RequestException (e : exn) : bool :=
  match e with
  | ConnectionError | Timeout | MissingSchema | InvalidURL | HTTPError _ => true
  | _ => false
  end.

(** What evaluating a Python expression gives: a value or a raised exception. *)
Inductive outcome (A : Type) : Type :=
| Returns (a : A)
| Raises (e : exn).
Arguments Returns {A} a.
Arguments Raises {A} e.

(** ** JSON values, as [json.loads] hands them to Python *)

(** [JNull] is [None], [JObj] a [dict] given by its items (keys distinct),
    [JArr] a [list].  [JNum] carries an integer; a fractional number
    behaves in the handler like a non-zero integer. *)
Inductive json : Type :=
| JNull
| JBool (b : bool)
| JNum (n : Z)
| JStr (s : string)
| JArr (items : list json)
| JObj (items : list (string * json)).

Module Py.

(** [bool(v)], so that [not v] is [negb (truthy v)]. *)
Definition truthy (v : json) : bool :=
  match v with
  | JNull => false
  | JBool b => b
  | JNum n => negb (n =? 0)%Z
  | JStr s => negb (PyStr.is_empty s)
  | JArr [] => false
  | JArr (_ :: _) => true
  | JObj [] => false
  | JObj (_ :: _) => true
  end.

Fixpoint lookup (key : string) (items : list (string * json)) : option json :=
  match items with
  | [] => None
  | (k, v) :: tl => if String.eqb k key then Some v else lookup key tl
  end.

Definition is_str (key : string) (v : json) : bool :=
  match v with
  | JStr s => String.eqb s key
  | _ => false
  end.

(** [key in v] for a string [key]: membership of a key in a dict, of an
    element in a list, of a substring in a string; a [TypeError] on a
    number or a boolean ([None] never gets here). *)
Definition contains (key : string) (v : json) : outcome bool :=
  match v with
  | JObj items =>
      Returns (match lookup key items with Some _ => true | None => false end)
  | JArr items => Returns (existsb (is_str key) items)
  | JStr s => Returns (PyStr.contains key s)
  | JNull | JBool _ | JNum _ => Raises TypeError
  end.

(** [v[key]] for a string [key]. *)
Definition getitem (v : json) (key : string) : outcome json :=
  match v with
  | JObj items =>
      match lookup key items with
      | Some x => Returns x
      | None => Raises KeyError
      end
  | _ => Raises TypeError
  end.

End Py.

(** ** The parsed page, as [bs4] presents it *)

Module Bs4.

(** A node of the parse tree: a text node, a node whose string
    [get_text] skips (a comment, a doctype), or an element. *)
Inductive node : Type :=
| NavigableString (s : string)
| Comment (s : string)
| Tag (name : string) (contents : list node).

(** The [BeautifulSoup] object: the top-level nodes of the document. *)
Definition soup : Type := list node.

(** [find_all(name)]: the elements called [name], in document order. *)
Fixpoint find_all_in (name : string) (n : node) : list node :=
  match n with
  | Tag nm contents =>
      (if String.eqb nm name then [n] else [])
        ++ flat_map (find_all_in name) contents
  | _ => []
  end.

Definition find_all (name : string) (s : soup) : list node :=
  flat_map (find_all_in name) s.

(** The text nodes below [n], in document order. *)
Fixpoint strings (n : node) : list string :=
  match n with
  | NavigableString s => [s]
  | Comment _ => []
  | Tag _ contents => flat_map strings contents
  end.

(** [n.get_text(strip=True)]: every text node stripped, the empty ones
    dropped, the rest concatenated with the default separator [""]. *)
Definition get_text_strip (n : node) : string :=
  PyStr.join ""
    (filter (fun s => negb (PyStr.is_empty s)) (map PyStr.strip (strings n))).

(** Does an element called [name] occur in the tree? *)
Fixpoint occurs_in (name : string) (n : node) : bool :=
  match n with
  | Tag nm contents => String.eqb nm name || existsb (occurs_in name) contents
  | _ => false
  end.

Definition occurs (name : string) (s : soup) : bool :=
  existsb (occurs_in name) s.

End Bs4.

(** ** The effect monad: outbound calls are recorded, exceptions propagate *)

(** One record per call that leaves the process. *)
Inductive event : Type :=
| HttpGet (url : json) (user_agent : string) (timeout : Z)
| ParseHtml (markup : string) (parser : string)
| GenerateContent (model prompt : string).

Definition trace : Type := list event.

Definition M (A : Type) : Type := trace -> outcome A * trace.

Definition ret {A} (a : A) : M A := fun t => (Returns a, t).

Definition bind {A B} (m : M A) (k : A -> M B) : M B :=
  fun t =>
    match m t with
    | (Returns a, t') => k a t'
    | (Raises e, t') => (Raises e, t')
    end.

(** An expression that touches nothing outside. *)
Definition lift {A} (o : outcome A) : M A := fun t => (o, t).

(** An outbound call with outcome [o]. *)
Definition call {A} (ev : event) (o : outcome A) : M A :=
  fun t => (o, t ++ [ev]).

(** [try: body  except ...: handler e]: every clause of the handlers in
    [main.py] catches a subclass of [Exception]. *)
Definition try_except {A} (body : M A) (handler : exn -> M A) : M A :=
  fun t =>
    match body t with
    | (Returns a, t') => (Returns a, t')
    | (Raises e, t') => handler e t'
    end.

Declare Scope eff_scope.
Delimit Scope eff_scope with eff.
Notation "x <- m ;; k" := (bind m (fun x => k))
  (at level 61, m at next level, right associativity) : eff_scope.
Local Open Scope eff_scope.

(** Running a computation from the empty trace. *)
Definition run {A} (m : M A) : outcome A * trace := m [].
Definition result {A} (m : M A) : outcome A := fst (run m).
Definition calls {A} (m : M A) : trace := snd (run m).

(** ** The environment of one request *)

Record http_response : Type := {
  status_code : Z;
  content : string
}.

(** The object [generate_content] returns; reading its [text] can raise. *)
Record generation : Type := {
  text : outcome string
}.

Record env : Type := {
  (** [os.environ.get("GEMINI_API_KEY")], read once at start. *)
  gemini_api_key : option string;
  (** [requests.get(url, headers=..., timeout=10)]. *)
  requests_get : json -> outcome http_response;
  (** [BeautifulSoup(content, 'html.parser')]. *)
  BeautifulSoup : string -> outcome Bs4.soup;
  (** [genai.GenerativeModel(name).generate_content(prompt)]. *)
  generate_content : string -> string -> outcome generation
}.

(** The inbound request: what [request.get_json()] does on it.  With its
    default arguments it raises when the body cannot be decoded. *)
Record request : Type := {
  get_json : outcome json
}.

(** [not gemini_api_key]: unset, or set to the empty string. *)
Definition key_missing (k : option string) : bool :=
  match k with
  | None => true
  | Some s => PyStr.is_empty s
  end.

(** ** [main.py] *)

(** [response.raise_for_status()]. *)
Definition raise_for_status (r : http_response) : M unit :=
  let c := status_code r in
  if ((400 <=? c) && (c <? 500))%Z then lift (Raises (HTTPError c))
  else if ((500 <=? c) && (c <? 600))%Z then lift (Raises (HTTPError c))
  else ret tt.

Definition max_words : nat := 1500.

(** Line 61: the paragraphs' texts joined by one space. *)
Definition paragraph_text (soup : Bs4.soup) : string :=
  PyStr.join " " (map Bs4.get_text_strip (Bs4.find_all "p" soup)).

(** Lines 60 to 65: from the parsed page to the article text. *)
Definition article_text_of (soup : Bs4.soup) : string :=
  let text := paragraph_text soup in
  PyStr.join " " (firstn max_words (PyStr.split text)).

Definition nl : string := String "010" "".

Definition model_name_to_use : string := "models/gemini-pro-latest".

Definition prompt_for (article_text : string) : string :=
  "Summarize the following article text in 3 concise bullet points:"
    ++ nl ++ nl ++ article_text.

(** [jsonify({"error": msg})] and [jsonify({"summary": s})]. *)
Definition error_body (msg : string) : json := JObj [("error", JStr msg)].
Definition summary_body (s : string) : json := JObj [("summary", JStr s)].

Definition response : Type := (json * Z)%type.

Section Handler.

Variable E : env.

(** [scrape_article_text(url)]. *)
Definition scrape_article_text (url : json) : M string :=
  try_except
    (response <- call (HttpGet url "Mozilla/5.0" 10) (requests_get E url) ;;
     _ <- raise_for_status response ;;
     soup <- call (ParseHtml (content response) "html.parser")
                  (BeautifulSoup E (content response)) ;;
     ret (article_text_of soup))
    (fun e => if is_RequestException e then ret "" else ret "").

(** [not data or "url" not in data]. *)
Definition no_url (data : json) : M bool :=
  if negb (Py.truthy data) then ret true
  else (b <- lift (Py.contains "url" data) ;; ret (negb b)).

(** [summarize()], the view of [POST /summarize]. *)
Definition summarize (req : request) : M response :=
  try_except
    (data <- lift (get_json req) ;;
     missing <- no_url data ;;
     if missing then ret (error_body "No URL provided", 400%Z)
     else
       url_to_scrape <- lift (Py.getitem data "url") ;;
       article_text <- scrape_article_text url_to_scrape ;;
       if PyStr.is_empty article_text
       then ret (error_body "Could not scrape text from URL", 400%Z)
       else if key_missing (gemini_api_key E)
       then ret (error_body "AI API key not configured on server", 500%Z)
       else
         let prompt := prompt_for article_text in
         response <- call (GenerateContent model_name_to_use prompt)
                          (generate_content E model_name_to_use prompt) ;;
         summary <- lift (text response) ;;
         ret (summary_body summary, 200%Z))
    (fun _ => ret (error_body "An internal server error occurred", 500%Z)).

End Handler.

(** ** The notions the specification uses *)

Module Spec.

(** Whitespace-normalised text, read off the characters: leading and
    trailing whitespace goes, and every run of whitespace between two
    words becomes one space.  [emitted]: a word character has been written;
    [gap]: whitespace was read since. *)
Fixpoint collapse_from (emitted gap : bool) (s : string) : string :=
  match s with
  | "" => ""
  | String c r =>
      if PyStr.is_space c then collapse_from emitted true r
      else (if emitted && gap then " " else "")
             ++ String c (collapse_from true false r)
  end.

Definition collapse_ws (s : string) : string := collapse_from false false s.

(** The number of whitespace-delimited tokens of a text. *)
Definition word_count (s : string) : nat := length (PyStr.split s).

(** The parsed JSON body gives no ["url"]: it is [None], another empty
    value, or an object without that key. *)
Definition omits_url (data : json) : bool :=
  negb (Py.truthy data) ||
  match data with
  | JObj items =>
      match Py.lookup "url" items with Some _ => false | None => true end
  | _ => false
  end.

(** The JSON body lacks the ["url"] field. *)
Definition lacks_url_field (data : json) : bool :=
  match data with
  | JObj items =>
      match Py.lookup "url" items with Some _ => false | None => true end
  | _ => true
  end.

(** The fetch of [url] fails: the transport raises, or the server answers
    with a 4xx or 5xx status. *)
Inductive fetch_failure (E : env) (url : json) : Prop :=
| transport_error (e : exn) :
    requests_get E url = Raises e -> fetch_failure E url
| error_status (r : http_response) :
    requests_get E url = Returns r ->
    (400 <= status_code r < 600)%Z -> fetch_failure E url.

(** Scraping [url] fails: the fetch fails or the parser raises. *)
Inductive scrape_failure (E : env) (url : json) : Prop :=
| fetch_fails : fetch_failure E url -> scrape_failure E url
| parser_error (r : http_response) (e : exn) :
    requests_get E url = Returns r ->
    BeautifulSoup E (content r) = Raises e -> scrape_failure E url.

Definition is_generate (ev : event) : bool :=
  match ev with
  | GenerateContent _ _ => true
  | _ => false
  end.

(** Was the summarizer called? *)
Definition summarizer_called (t : trace) : bool := existsb is_generate t.

End Spec.

(** ** Concrete pages, environments and requests *)

Module Scenario.

Import Bs4.

(** [<html><body><p>Hello world.</p><p>Second paragraph.</p></body></html>] *)
Definition two_paragraphs : soup :=
  [Tag "html"
     [Tag "body"
        [Tag "p" [NavigableString "Hello world."];
         Tag "p" [NavigableString "Second paragraph."]]]].

(** [<html><body><h1>Title</h1><div>No paragraph here.</div></body></html>] *)
Definition no_paragraph : soup :=
  [Tag "html"
     [Tag "body"
        [Tag "h1" [NavigableString "Title"];
         Tag "div" [NavigableString "No paragraph here."]]]].


Definition ok_response : http_response :=
  {| status_code := 200; content := "<html>...</html>" |}.

Definition not_found : http_response :=
  {| status_code := 404; content := "Not Found" |}.

(** The model answers every prompt with one fixed text. *)
Definition mock_generate (_ _ : string) : outcome generation :=
  Returns {| text := Returns "* a * b * c" |}.

(** Every page is [page]; the credential is [key]. *)
Definition serving (key : option string) (page : soup) : env :=
  {| gemini_api_key := key;
     requests_get := fun _ => Returns ok_response;
     BeautifulSoup := fun _ => Returns page;
     generate_content := mock_generate |}.

(** No host can be reached. *)
Definition offline (key : option string) : env :=
  {| gemini_api_key := key;
     requests_get := fun _ => Raises ConnectionError;
     BeautifulSoup := fun _ => Returns [];
     generate_content := mock_generate |}.

(** Every URL answers 404. *)
Definition all_404 (key : option string) : env :=
  {| gemini_api_key := key;
     requests_get := fun _ => Returns not_found;
     BeautifulSoup := fun _ => Returns two_paragraphs;
     generate_content := mock_generate |}.

(** The parser raises on every page. *)
Definition unparsable (key : option string) : env :=
  {| gemini_api_key := key;
     requests_get := fun _ => Returns ok_response;
     BeautifulSoup := fun _ => Raises (OtherError "ParserRejectedMarkup");
     generate_content := mock_generate |}.

(** [requests.get("")] raises [MissingSchema]; other URLs are served. *)
Definition no_scheme (key : option string) : env :=
  {| gemini_api_key := key;
     requests_get := fun url =>
       match url with
       | JStr "" => Raises MissingSchema
       | _ => Returns ok_response
       end;
     BeautifulSoup := fun _ => Returns two_paragraphs;
     generate_content := mock_generate |}.

Definition article_url : json := JStr "http://example.com/article".

(** Body [{"url": u}]. *)
Definition post (u : json) : request :=
  {| get_json := Returns (JObj [("url", u)]) |}.

(** A body that parses to [v]. *)
Definition post_json (v : json) : request := {| get_json := Returns v |}.

(** A body sent as JSON that cannot be decoded, such as [{"url": ]. *)
Definition post_malformed : request := {| get_json := Raises BadRequest |}.

(** An empty body sent as JSON: decoding it fails as well. *)
Definition post_empty : request := {| get_json := Raises BadRequest |}.

(** [<p>Hello <b>world</b></p>] *)
Definition inline_markup : node :=
  Tag "p" [NavigableString "Hello "; Tag "b" [NavigableString "world"]].

End Scenario.

(** ** Blank text *)

Module Text.

(** A string of whitespace only (the empty string included). *)
Fixpoint blank (s : string) : bool :=
  match s with
  | "" => true
  | String c r => PyStr.is_space c && blank r
  end.

(** No text node below [n] holds anything but whitespace. *)
Definition blank_node (n : Bs4.node) : bool := forallb blank (Bs4.strings n).

(** The words of the paragraphs of a page, paragraph after paragraph. *)
Definition paragraph_words (soup : Bs4.soup) : list string :=
  flat_map (fun p => PyStr.split (Bs4.get_text_strip p))
           (Bs4.find_all "p" soup).

End Text.

(** ** Loading the module: lines 24 to 45 of [main.py] *)

(** At load time the prints are all there is to see, so they are recorded
    here, next to the calls into [google.generativeai]. *)
Module Startup.

(** A model as [genai.list_models()] yields it. *)
Record model_info : Type := {
  model_name : string;
  supported_generation_methods : list string
}.

Inductive log_entry : Type :=
| Print (line : string)
(** [print(f"{prefix}{e}")] for a caught exception [e]. *)
| PrintExn (prefix : string) (e : exn)
| Configure (api_key : string)
| ListModels.

(** [google.generativeai] at load time: what [configure] does, the models
    the iterator of [list_models()] yields, and the exception that ends
    the iteration, if one does. *)
Record provider : Type := {
  configure : string -> outcome unit;
  listed : list model_info;
  listing_error : option exn
}.

Definition W (A : Type) : Type := list log_entry -> outcome A * list log_entry.

Definition wret {A} (a : A) : W A := fun l => (Returns a, l).

Definition wbind {A B} (m : W A) (k : A -> W B) : W B :=
  fun l =>
    match m l with
    | (Returns a, l') => k a l'
    | (Raises e, l') => (Raises e, l')
    end.

Definition then_ {A} (m : W unit) (k : W A) : W A := wbind m (fun _ => k).

Definition say (x : log_entry) : W unit := fun l => (Returns tt, l ++ [x]).

Definition attempt {A} (o : outcome A) : W A := fun l => (o, l).

Definition wtry {A} (body : W A) (handler : exn -> W A) : W A :=
  fun l =>
    match body l with
    | (Returns a, l') => (Returns a, l')
    | (Raises e, l') => handler e l'
    end.

(** ['generateContent' in m.supported_generation_methods]. *)
Definition supports_generation (m : model_info) : bool :=
  existsb (String.eqb "generateContent") (supported_generation_methods m).

(** The body of the [for] loop over the models yielded. *)
Fixpoint print_supported (ms : list model_info) : W unit :=
  match ms with
  | [] => wret tt
  | m :: tl =>
      then_ (if supports_generation m
             then say (Print (" - " ++ model_name m))
             else wret tt)
            (print_supported tl)
  end.

Definition end_of_listing (e : option exn) : W unit :=
  match e with
  | Some x => attempt (Raises x)
  | None => wret tt
  end.

Definition no_key_warning : string :=
  "Warning: GEMINI_API_KEY environment variable not set.".

(** Lines 24 to 31. *)
Definition configure_ai (key : option string) (P : provider) : W unit :=
  match key with
  | None => say (Print no_key_warning)
  | Some k =>
      if PyStr.is_empty k then say (Print no_key_warning)
      else
        wtry (then_ (say (Configure k)) (attempt (configure P k)))
             (fun e => say (PrintExn "Error configuring Gemini: " e))
  end.

(** Lines 34 to 45. *)
Definition list_available_models (key : option string) (P : provider)
  : W unit :=
  then_ (say (Print "Listing available Gemini models..."))
    (wtry
       (if negb (key_missing key)
        then then_ (say ListModels)
               (then_ (print_supported (listed P))
                      (end_of_listing (listing_error P)))
        else say (Print "Skipping model listing as API key is not set."))
       (fun e => say (PrintExn "Could not list models: " e))).

(** Lines 24 to 45, from an empty log. *)
Definition load (key : option string) (P : provider)
  : outcome unit * list log_entry :=
  then_ (configure_ai key P) (list_available_models key P) [].

Definition is_provider_call (x : log_entry) : bool :=
  match x with
  | Configure _ | ListModels => true
  | _ => false
  end.

(** Models for the examples. *)
Definition gemini_pro : model_info :=
  {| model_name := "models/gemini-pro-latest";
     supported_generation_methods := ["generateContent"; "countTokens"] |}.

Definition embedding : model_info :=
  {| model_name := "models/embedding-001";
     supported_generation_methods := ["embedContent"] |}.

(** [configure] raises and the listing breaks off after two models. *)
Definition flaky : provider :=
  {| configure := fun _ => Raises (OtherError "DefaultCredentialsError");
     listed := [embedding; gemini_pro];
     listing_error := Some (OtherError "ServiceUnavailable") |}.

End Startup.

(** ** More pages, environments and requests *)

Module Cases.

Import Bs4 Scenario.

(** [<div>Menu</div><p> </p><p><!-- ad --><span>
    </span></p>]: paragraphs, but nothing to read in them. *)
Definition blank_paragraphs : soup :=
  [Tag "div" [NavigableString "Menu"];
   Tag "p" [NavigableString " "];
   Tag "p" [Comment " ad "; Tag "span" [NavigableString (String "010" " ")]]].

(** The call to the model raises. *)
Definition model_down (page : soup) : env :=
  {| gemini_api_key := Some "key";
     requests_get := fun _ => Returns ok_response;
     BeautifulSoup := fun _ => Returns page;
     generate_content := fun _ _ => Raises (OtherError "ResourceExhausted") |}.

(** The model answers, but reading [response.text] raises. *)
Definition model_blocked (page : soup) : env :=
  {| gemini_api_key := Some "key";
     requests_get := fun _ => Returns ok_response;
     BeautifulSoup := fun _ => Returns page;
     generate_content := fun _ _ => Returns {| text := Raises ValueError |} |}.

End Cases.

(** * Properties *)

(** ** The model on small inputs *)

Example split_drops_whitespace :
  PyStr.split "  Hello   world. " = ["Hello"; "world."].
Proof. reflexivity. Qed.

Example strip_both_ends : PyStr.strip "  a b  " = "a b".
Proof. reflexivity. Qed.

Example contains_substring :
  PyStr.contains "url" "my url" = true /\ PyStr.contains "url" "ur l" = false.
Proof. split; reflexivity. Qed.

Example find_all_document_order :
  map Bs4.get_text_strip (Bs4.find_all "p" Scenario.two_paragraphs)
  = ["Hello world."; "Second paragraph."].
Proof. reflexivity. Qed.

(** [get_text(strip=True)] strips each text node and puts nothing between
    them. *)
Example get_text_strip_inline_markup :
  Bs4.get_text_strip Scenario.inline_markup = "Helloworld".
Proof. reflexivity. Qed.

Example raise_for_status_404 :
  result (raise_for_status Scenario.not_found) = Raises (HTTPError 404).
Proof. reflexivity. Qed.

(** The end-to-end scenario: the page with two paragraphs, a credential
    and a model that answers. *)
Example end_to_end :
  article_text_of Scenario.two_paragraphs = "Hello world. Second paragraph." /\
  run (summarize (Scenario.serving (Some "key") Scenario.two_paragraphs)
         (Scenario.post Scenario.article_url))
  = (Returns (JObj [("summary", JStr "* a * b * c")], 200%Z),
     [HttpGet Scenario.article_url "Mozilla/5.0" 10;
      ParseHtml "<html>...</html>" "html.parser";
      GenerateContent "models/gemini-pro-latest"
        ("Summarize the following article text in 3 concise bullet points:"
           ++ nl ++ nl ++ "Hello world. Second paragraph.")%string]).
Proof. split; reflexivity. Qed.

(** ** Strings: [split], [join] and whitespace *)

Module PyStrFacts.

Import PyStr.

Lemma append_empty_r (s : string) : (s ++ "")%string = s.
Proof. induction s as [|c s IH]; simpl; [reflexivity | now rewrite IH]. Qed.

Lemma append_assoc (a b c : string) :
  ((a ++ b) ++ c = a ++ (b ++ c))%string.
Proof. induction a as [|x a IH]; simpl; [reflexivity | now rewrite IH]. Qed.

Lemma is_empty_true (s : string) : is_empty s = true -> s = "".
Proof. destruct s; [reflexivity | discriminate]. Qed.

Lemma is_empty_append_char (acc : string) (c : ascii) :
  is_empty (acc ++ String c "")%string = false.
Proof. destruct acc; reflexivity. Qed.

Lemma no_space_append (a b : string) :
  no_space (a ++ b)%string = no_space a && no_space b.
Proof.
  induction a as [|x a IH]; simpl; [reflexivity |].
  now rewrite IH, andb_assoc.
Qed.

Lemma is_word_inv (w : string) :
  is_word w = true -> is_empty w = false /\ no_space w = true.
Proof.
  unfold is_word. intros H. apply andb_true_iff in H as [H1 H2].
  split; [now apply negb_true_iff | exact H2].
Qed.

(** Reading a stretch without whitespace only grows the word in hand. *)
Lemma split_from_no_space (w acc s : string) :
  no_space w = true ->
  split_from acc (w ++ s)%string = split_from (acc ++ w)%string s.
Proof.
  revert acc. induction w as [|c w IH]; intros acc Hw; simpl in *.
  - now rewrite append_empty_r.
  - apply andb_true_iff in Hw as [Hc Hw].
    apply negb_true_iff in Hc. rewrite Hc, IH by exact Hw.
    now rewrite append_assoc.
Qed.

(** Every token [split] produces is a word. *)
Lemma split_from_words (s acc : string) :
  no_space acc = true -> Forall (fun w => is_word w = true) (split_from acc s).
Proof.
  revert acc. induction s as [|c s IH]; intros acc Hacc; simpl.
  - destruct (is_empty acc) eqn:He; constructor; [|constructor].
    unfold is_word. now rewrite He, Hacc.
  - destruct (is_space c) eqn:Hc.
    + destruct (is_empty acc) eqn:He.
      * now apply IH.
      * constructor; [unfold is_word; now rewrite He, Hacc | now apply IH].
    + apply IH. rewrite no_space_append, Hacc. simpl. now rewrite Hc.
Qed.

Lemma split_words (s : string) : Forall (fun w => is_word w = true) (split s).
Proof. now apply split_from_words. Qed.

(** Splitting what [join] built from words gives the words back. *)
Lemma split_join (ws : list string) :
  Forall (fun w => is_word w = true) ws -> split (join " " ws) = ws.
Proof.
  unfold split. induction ws as [|w ws IH]; intros Hws; [reflexivity |].
  inversion Hws as [|? ? Hw Hrest]; subst.
  apply is_word_inv in Hw as [Hne Hns].
  destruct ws as [|w' ws].
  - simpl. rewrite <- (append_empty_r w) at 1.
    rewrite split_from_no_space by exact Hns. simpl. now rewrite Hne.
  - change (join " " (w :: w' :: ws))
      with (w ++ String " " (join " " (w' :: ws)))%string.
    rewrite split_from_no_space by exact Hns. simpl.
    rewrite Hne. f_equal. now apply IH.
Qed.

Lemma Forall_firstn {A} (P : A -> Prop) (n : nat) (l : list A) :
  Forall P l -> Forall P (firstn n l).
Proof.
  revert n. induction l as [|x l IH]; intros [|n] H; simpl; try constructor.
  - now inversion H.
  - apply IH. now inversion H.
Qed.

(** The first [n] tokens survive a round trip through [join] and [split]. *)
Lemma split_join_firstn (n : nat) (s : string) :
  split (join " " (firstn n (split s))) = firstn n (split s).
Proof. apply split_join, Forall_firstn, split_words. Qed.

Lemma split_from_nonempty (s acc : string) :
  is_empty acc = false -> split_from acc s <> [].
Proof.
  revert acc. induction s as [|c s IH]; intros acc He; simpl.
  - now rewrite He.
  - destruct (is_space c).
    + now rewrite He.
    + apply IH, is_empty_append_char.
Qed.

(** [join] after [split] against the character-level normalisation: with a
    word in hand, and after a gap. *)
Lemma join_split_from (s : string) :
  (forall acc, is_empty acc = false ->
     join " " (split_from acc s)
     = (acc ++ Spec.collapse_from true false s)%string) /\
  Spec.collapse_from true true s =
    match split_from "" s with
    | [] => ""
    | ws => (" " ++ join " " ws)%string
    end.
Proof.
  induction s as [|c s [IHa IHb]]; simpl.
  - split; [|reflexivity]. intros acc He. rewrite He. simpl.
    now rewrite append_empty_r.
  - destruct (is_space c) eqn:Hc; simpl.
    + split; [|exact IHb]. intros acc He. rewrite He, IHb.
      destruct (split_from "" s); simpl; [now rewrite append_empty_r | reflexivity].
    + split.
      * intros acc He. rewrite IHa by apply is_empty_append_char.
        now rewrite append_assoc.
      * pose proof (split_from_nonempty s (String c "") eq_refl) as Hne.
        specialize (IHa (String c "") eq_refl).
        destruct (split_from (String c "") s) as [|w ws]; [congruence |].
        simpl in IHa |- *. now rewrite IHa.
Qed.

Lemma join_split_collapse_from (g : bool) (s : string) :
  join " " (split s) = Spec.collapse_from false g s.
Proof.
  unfold split. revert g. induction s as [|c s IH]; intros g; simpl; [reflexivity |].
  destruct (is_space c); [apply IH |].
  now rewrite (proj1 (join_split_from s)).
Qed.

(** [' '.join(s.split())] is the whitespace-normalised [s]. *)
Lemma join_split (s : string) : join " " (split s) = Spec.collapse_ws s.
Proof. apply join_split_collapse_from. Qed.

End PyStrFacts.

(** ** The parse tree *)

Module Bs4Facts.

Import Bs4.

(** A tree in which no element is called [name] gives [find_all] nothing. *)
Lemma find_all_in_absent (name : string) :
  forall n, occurs_in name n = false -> find_all_in name n = [].
Proof.
  fix IH 1. intros [s|s|nm contents]; simpl; try reflexivity.
  intros H. apply orb_false_iff in H as [Hn Hc]. rewrite Hn. simpl.
  induction contents as [|x xs IHxs]; simpl in *; [reflexivity |].
  apply orb_false_iff in Hc as [Hx Hxs].
  rewrite (IH x Hx). simpl. now apply IHxs.
Qed.

Lemma find_all_absent (name : string) (s : soup) :
  occurs name s = false -> find_all name s = [].
Proof.
  unfold occurs, find_all. induction s as [|x xs IH]; simpl; [reflexivity |].
  intros H. apply orb_false_iff in H as [Hx Hxs].
  rewrite (find_all_in_absent name x Hx). simpl. now apply IH.
Qed.

End Bs4Facts.

(** ** The extractor, lines 60 to 65 *)

Lemma article_text_of_split (soup : Bs4.soup) :
  PyStr.split (article_text_of soup)
  = firstn max_words (PyStr.split (paragraph_text soup)).
Proof. unfold article_text_of. apply PyStrFacts.split_join_firstn. Qed.

Lemma article_text_of_word_count (soup : Bs4.soup) :
  Spec.word_count (article_text_of soup) <= max_words.
Proof.
  unfold Spec.word_count. rewrite article_text_of_split.
  apply firstn_le_length.
Qed.


(** ** The scraper and the handler, run from any trace *)

Section HandlerFacts.

Variable E : env.

Lemma raise_for_status_run (r : http_response) (t : trace) :
  raise_for_status r t =
  if ((400 <=? status_code r) && (status_code r <? 600))%Z
  then (Raises (HTTPError (status_code r)), t)
  else (Returns tt, t).
Proof.
  unfold raise_for_status, lift, ret.
  destruct (400 <=? status_code r)%Z eqn:H1,
           (status_code r <? 500)%Z eqn:H2,
           (500 <=? status_code r)%Z eqn:H3,
           (status_code r <? 600)%Z eqn:H4; simpl; try reflexivity; lia.
Qed.

(** What [scrape_article_text] returns and which calls it makes, by cases
    on the fetch, the status and the parser. *)
Lemma scrape_article_text_run (url : json) (t : trace) :
  scrape_article_text E url t =
  let t1 := t ++ [HttpGet url "Mozilla/5.0" 10] in
  match requests_get E url with
  | Raises _ => (Returns "", t1)
  | Returns r =>
      if ((400 <=? status_code r) && (status_code r <? 600))%Z
      then (Returns "", t1)
      else
        let t2 := t1 ++ [ParseHtml (content r) "html.parser"] in
        match BeautifulSoup E (content r) with
        | Raises _ => (Returns "", t2)
        | Returns soup => (Returns (article_text_of soup), t2)
        end
  end.
Proof.
  unfold scrape_article_text, try_except, bind, call, ret. cbv zeta.
  destruct (requests_get E url) as [r|e].
  - rewrite raise_for_status_run.
    destruct ((400 <=? status_code r) && (status_code r <? 600))%Z.
    + now destruct (is_RequestException _).
    + destruct (BeautifulSoup E (content r)) as [soup|e]; [reflexivity |].
      now destruct (is_RequestException e).
  - now destruct (is_RequestException e).
Qed.

(** The scraper returns a text from any trace, extends the trace by its
    own calls, and never calls the summarizer. *)
Lemma scrape_article_text_returns (url : json) (t : trace) :
  exists text,
    result (scrape_article_text E url) = Returns text /\
    scrape_article_text E url t
    = (Returns text, t ++ calls (scrape_article_text E url)) /\
    Spec.summarizer_called (calls (scrape_article_text E url)) = false /\
    Spec.word_count text <= max_words.
Proof.
  unfold result, calls, run. rewrite !scrape_article_text_run. cbv zeta.
  destruct (requests_get E url) as [r|e]; simpl.
  2: { exists "". repeat split; auto. apply Nat.le_0_l. }
  destruct ((400 <=? status_code r) && (status_code r <? 600))%Z; simpl.
  { exists "". repeat split; auto. apply Nat.le_0_l. }
  destruct (BeautifulSoup E (content r)) as [soup|e]; simpl.
  - exists (article_text_of soup). rewrite <- app_assoc.
    repeat split; auto. apply article_text_of_word_count.
  - exists "". rewrite <- app_assoc. repeat split; auto. apply Nat.le_0_l.
Qed.

Lemma scrape_article_text_from (url : json) (text : string) (t : trace) :
  result (scrape_article_text E url) = Returns text ->
  scrape_article_text E url t
  = (Returns text, t ++ calls (scrape_article_text E url)).
Proof.
  intros H. destruct (scrape_article_text_returns url t) as (s & Hs & Ht & _).
  rewrite Hs in H. injection H as ->. exact Ht.
Qed.

(** The handler on a body that is an object with a ["url"] key. *)
Lemma summarize_run (req : request) (items : list (string * json))
    (url : json) (article : string) :
  get_json req = Returns (JObj items) ->
  Py.lookup "url" items = Some url ->
  result (scrape_article_text E url) = Returns article ->
  run (summarize E req) =
  let t := calls (scrape_article_text E url) in
  if PyStr.is_empty article
  then (Returns (error_body "Could not scrape text from URL", 400%Z), t)
  else if key_missing (gemini_api_key E)
  then (Returns (error_body "AI API key not configured on server", 500%Z), t)
  else
    let t' := t ++ [GenerateContent model_name_to_use (prompt_for article)] in
    match generate_content E model_name_to_use (prompt_for article) with
    | Returns g =>
        match text g with
        | Returns summary => (Returns (summary_body summary, 200%Z), t')
        | Raises _ =>
            (Returns (error_body "An internal server error occurred", 500%Z), t')
        end
    | Raises _ =>
        (Returns (error_body "An internal server error occurred", 500%Z), t')
    end.
Proof.
  intros Hj Hl Hs.
  unfold run, summarize, try_except, bind, lift, no_url. rewrite Hj.
  assert (Ht : Py.truthy (JObj items) = true)
    by (destruct items; [discriminate | reflexivity]).
  rewrite Ht. simpl. unfold bind, lift, ret. simpl. rewrite Hl. simpl.
  rewrite (scrape_article_text_from url article [] Hs). simpl.
  destruct (PyStr.is_empty article); [reflexivity |].
  destruct (key_missing (gemini_api_key E)); [reflexivity |].
  unfold call.
  destruct (generate_content E model_name_to_use (prompt_for article)) as [g|e];
    [|reflexivity].
  now destruct (text g).
Qed.

(** The handler on a body that gives no ["url"]. *)
Lemma summarize_omits_url (req : request) (data : json) :
  get_json req = Returns data ->
  Spec.omits_url data = true ->
  run (summarize E req) = (Returns (error_body "No URL provided", 400%Z), []).
Proof.
  intros Hj Ho.
  unfold run, summarize, try_except, bind, lift, no_url. rewrite Hj.
  unfold Spec.omits_url in Ho.
  destruct (Py.truthy data) eqn:Ht; simpl in *; [|reflexivity].
  destruct data as [| | | | |items]; try discriminate.
  unfold bind, lift, ret. simpl.
  now destruct (Py.lookup "url" items).
Qed.

(** The handler when [request.get_json()] raises. *)
Lemma summarize_get_json_raises (req : request) (e : exn) :
  get_json req = Raises e ->
  run (summarize E req)
  = (Returns (error_body "An internal server error occurred", 500%Z), []).
Proof.
  intros Hj. unfold run, summarize, try_except, bind, lift. now rewrite Hj.
Qed.

End HandlerFacts.

(** * The claims *)

Import Scenario.

(** ** C1 *)

(** C1, as stated, fails: with no credential configured, a well-formed
    request whose URL cannot be fetched is answered 400 with the
    scrape-error message, not 500 with the configuration-error message. *)
Lemma no_credential_unreachable_url :
  key_missing (gemini_api_key (offline None)) = true /\
  result (summarize (offline None) (post article_url))
  = Returns (error_body "Could not scrape text from URL", 400%Z).
Proof. split; reflexivity. Qed.

(** C1, amended: when no credential is configured (the variable is unset
    or empty), a request whose body is an object with a ["url"] key is
    answered 500 with the configuration-error message whenever scraping
    the URL yields a non-empty text, whatever the URL is; when scraping
    yields the empty text the answer is 400 with the scrape-error message,
    because the credential is checked after scraping.  The summarizer is
    not called either way. *)
Theorem summarize_without_credential (E : env) (req : request)
    (items : list (string * json)) (url : json) (article : string) :
  key_missing (gemini_api_key E) = true ->
  get_json req = Returns (JObj items) ->
  Py.lookup "url" items = Some url ->
  result (scrape_article_text E url) = Returns article ->
  result (summarize E req)
  = Returns (if PyStr.is_empty article
             then (error_body "Could not scrape text from URL", 400%Z)
             else (error_body "AI API key not configured on server", 500%Z))
  /\ Spec.summarizer_called (calls (summarize E req)) = false.
Proof.
  intros Hk Hj Hl Hs. unfold result, calls.
  rewrite (summarize_run E req items url article Hj Hl Hs). cbv zeta.
  rewrite Hk.
  destruct (scrape_article_text_returns E url []) as (s & _ & _ & Hc & _).
  destruct (PyStr.is_empty article); simpl; auto.
Qed.

Lemma summarize_without_credential_witness :
  result (summarize (serving None two_paragraphs) (post article_url))
  = Returns (error_body "AI API key not configured on server", 500%Z)
  /\ Spec.summarizer_called
       (calls (summarize (serving None two_paragraphs) (post article_url)))
     = false.
Proof.
  exact (summarize_without_credential (serving None two_paragraphs)
           (post article_url) [("url", article_url)] article_url
           "Hello world. Second paragraph."
           eq_refl eq_refl eq_refl eq_refl).
Defined.

(** ** C2 *)

(** C2, as stated, fails: a body sent as JSON that cannot be decoded makes
    [request.get_json()] raise inside the handler's [try], and the
    catch-all answers 500. *)
Lemma malformed_body_is_500 :
  result (summarize (serving (Some "key") two_paragraphs) post_malformed)
  = Returns (error_body "An internal server error occurred", 500%Z).
Proof. reflexivity. Qed.

(** C2, amended: a request whose body parses to [None], to another empty
    value or to an object without ["url"] is answered with status 400; a
    request whose body cannot be parsed ([request.get_json()] raises) is
    answered by the catch-all with status 500 and the generic message. *)
Theorem summarize_invalid_input (E : env) (req : request) :
  (forall data, get_json req = Returns data -> Spec.omits_url data = true ->
     exists body, result (summarize E req) = Returns (body, 400%Z)) /\
  (forall e, get_json req = Raises e ->
     result (summarize E req)
     = Returns (error_body "An internal server error occurred", 500%Z)).
Proof.
  split.
  - intros data Hj Ho. exists (error_body "No URL provided").
    unfold result. now rewrite (summarize_omits_url E req data Hj Ho).
  - intros e Hj. unfold result. now rewrite (summarize_get_json_raises E req e Hj).
Qed.

Lemma summarize_invalid_input_witness :
  (exists body,
     result (summarize (serving (Some "key") two_paragraphs)
               (post_json (JObj [("link", article_url)])))
     = Returns (body, 400%Z)) /\
  result (summarize (serving (Some "key") two_paragraphs) post_malformed)
  = Returns (error_body "An internal server error occurred", 500%Z).
Proof.
  split.
  - exact (proj1 (summarize_invalid_input (serving (Some "key") two_paragraphs)
                    (post_json (JObj [("link", article_url)])))
             (JObj [("link", article_url)]) eq_refl eq_refl).
  - exact (proj2 (summarize_invalid_input (serving (Some "key") two_paragraphs)
                    post_malformed)
             BadRequest eq_refl).
Defined.

(** ** C3 *)



(** ** C4 *)

(** C4: a request with a URL whose fetch fails, because [requests.get]
    raises (DNS failure, timeout, connection reset) or because the server
    answers with a 4xx or 5xx status, is answered 400 with
    [{"error": "Could not scrape text from URL"}]. *)
Theorem summarize_fetch_failure (E : env) (req : request)
    (items : list (string * json)) (url : json) :
  get_json req = Returns (JObj items) ->
  Py.lookup "url" items = Some url ->
  Spec.fetch_failure E url ->
  result (summarize E req)
  = Returns (JObj [("error", JStr "Could not scrape text from URL")], 400%Z).
Proof.
  intros Hj Hl Hf.
  assert (Hs : result (scrape_article_text E url) = Returns "").
  { unfold result, run. rewrite scrape_article_text_run. cbv zeta.
    destruct Hf as [e He | r Hr Hc].
    - now rewrite He.
    - rewrite Hr.
      replace ((400 <=? status_code r) && (status_code r <? 600))%Z
        with true by (symmetry; apply andb_true_iff; split; lia).
      reflexivity. }
  unfold result. now rewrite (summarize_run E req items url "" Hj Hl Hs).
Qed.

Lemma summarize_fetch_failure_witness :
  result (summarize (offline (Some "key")) (post article_url))
  = Returns (JObj [("error", JStr "Could not scrape text from URL")], 400%Z)
  /\
  result (summarize (all_404 (Some "key")) (post article_url))
  = Returns (JObj [("error", JStr "Could not scrape text from URL")], 400%Z).
Proof.
  split.
  - exact (summarize_fetch_failure (offline (Some "key")) (post article_url)
             [("url", article_url)] article_url eq_refl eq_refl
             (Spec.transport_error (offline (Some "key")) article_url
                ConnectionError eq_refl)).
  - refine (summarize_fetch_failure (all_404 (Some "key")) (post article_url)
              [("url", article_url)] article_url eq_refl eq_refl
              (Spec.error_status (all_404 (Some "key")) article_url
                 not_found eq_refl _)).
    simpl. lia.
Defined.

(** ** C5 *)

(** C5, as stated, fails: for an empty body sent as JSON
    [request.get_json()] raises, and the catch-all answers 500 with the
    generic message; the same happens for the body [5], which is JSON and
    lacks the ["url"] field, because ["url" not in 5] raises a
    [TypeError]. *)
Lemma body_without_url_is_500 :
  result (summarize (serving (Some "key") two_paragraphs) post_empty)
  = Returns (error_body "An internal server error occurred", 500%Z) /\
  Spec.lacks_url_field (JNum 5) = true /\
  result (summarize (serving (Some "key") two_paragraphs) (post_json (JNum 5)))
  = Returns (error_body "An internal server error occurred", 500%Z).
Proof. repeat split; reflexivity. Qed.

(** C5, amended: a request whose body parses to an object without the
    ["url"] field (the empty object included), to [None] (an absent body,
    where [request.get_json()] returns it) or to another empty value is
    answered 400 with [{"error": "No URL provided"}], and nothing is
    fetched. *)
Theorem summarize_no_url (E : env) (req : request) (data : json) :
  get_json req = Returns data ->
  Spec.omits_url data = true ->
  result (summarize E req)
  = Returns (JObj [("error", JStr "No URL provided")], 400%Z) /\
  calls (summarize E req) = [].
Proof.
  intros Hj Ho. unfold result, calls.
  now rewrite (summarize_omits_url E req data Hj Ho).
Qed.

Lemma summarize_no_url_witness :
  (result (summarize (serving (Some "key") two_paragraphs) (post_json (JObj [])))
   = Returns (JObj [("error", JStr "No URL provided")], 400%Z) /\
   calls (summarize (serving (Some "key") two_paragraphs) (post_json (JObj [])))
   = []) /\
  (result (summarize (serving (Some "key") two_paragraphs) (post_json JNull))
   = Returns (JObj [("error", JStr "No URL provided")], 400%Z) /\
   calls (summarize (serving (Some "key") two_paragraphs) (post_json JNull))
   = []).
Proof.
  split.
  - exact (summarize_no_url (serving (Some "key") two_paragraphs)
             (post_json (JObj [])) (JObj []) eq_refl eq_refl).
  - exact (summarize_no_url (serving (Some "key") two_paragraphs)
             (post_json JNull) JNull eq_refl eq_refl).
Defined.

(** ** C6 *)

(** C6: a page without [<p>] elements is extracted to the empty string,
    and a request for it is answered 400 with the scrape-error message
    without the summarizer being called. *)
Theorem summarize_no_paragraph (E : env) (req : request)
    (items : list (string * json)) (url : json) (r : http_response)
    (soup : Bs4.soup) :
  get_json req = Returns (JObj items) ->
  Py.lookup "url" items = Some url ->
  requests_get E url = Returns r ->
  (status_code r < 400 \/ 600 <= status_code r)%Z ->
  BeautifulSoup E (content r) = Returns soup ->
  Bs4.occurs "p" soup = false ->
  article_text_of soup = "" /\
  result (summarize E req)
  = Returns (error_body "Could not scrape text from URL", 400%Z) /\
  Spec.summarizer_called (calls (summarize E req)) = false.
Proof.
  intros Hj Hl Hr Hc Hp Ho.
  assert (Ha : article_text_of soup = "").
  { unfold article_text_of, paragraph_text.
    now rewrite (Bs4Facts.find_all_absent "p" soup Ho). }
  assert (Hs : scrape_article_text E url []
               = (Returns "", [HttpGet url "Mozilla/5.0" 10;
                               ParseHtml (content r) "html.parser"])).
  { rewrite scrape_article_text_run. cbv zeta. rewrite Hr.
    replace ((400 <=? status_code r) && (status_code r <? 600))%Z
      with false by (symmetry; apply andb_false_iff; lia).
    now rewrite Hp, Ha. }
  split; [exact Ha |].
  assert (Hres : result (scrape_article_text E url) = Returns "")
    by (unfold result, run; now rewrite Hs).
  unfold result, calls.
  rewrite (summarize_run E req items url "" Hj Hl Hres). cbv zeta. simpl.
  split; [reflexivity |]. unfold calls, run. now rewrite Hs.
Qed.

Lemma summarize_no_paragraph_witness :
  article_text_of no_paragraph = "" /\
  result (summarize (serving (Some "key") no_paragraph) (post article_url))
  = Returns (error_body "Could not scrape text from URL", 400%Z) /\
  Spec.summarizer_called
    (calls (summarize (serving (Some "key") no_paragraph) (post article_url)))
  = false.
Proof.
  refine (summarize_no_paragraph (serving (Some "key") no_paragraph)
            (post article_url) [("url", article_url)] article_url
            ok_response no_paragraph eq_refl eq_refl eq_refl _ eq_refl eq_refl).
  left. simpl. lia.
Defined.

(** ** C7 *)

(** C7: on the success path (a URL is given, scraping yields a non-empty
    text, a credential is configured, the model answers with a text) the
    summarizer is called once, with the model ["models/gemini-pro-latest"]
    and the prompt
    ["Summarize the following article text in 3 concise bullet points:"],
    two line feeds and the article text; the answer is 200 with
    [{"summary": s}], [s] being the generated text as it came. *)
Theorem summarize_success (E : env) (req : request)
    (items : list (string * json)) (url : json) (article : string)
    (g : generation) (summary : string) :
  let prompt :=
    ("Summarize the following article text in 3 concise bullet points:"
       ++ String "010" (String "010" article))%string in
  get_json req = Returns (JObj items) ->
  Py.lookup "url" items = Some url ->
  result (scrape_article_text E url) = Returns article ->
  PyStr.is_empty article = false ->
  key_missing (gemini_api_key E) = false ->
  generate_content E "models/gemini-pro-latest" prompt = Returns g ->
  text g = Returns summary ->
  result (summarize E req) = Returns (JObj [("summary", JStr summary)], 200%Z)
  /\ calls (summarize E req)
     = calls (scrape_article_text E url)
         ++ [GenerateContent "models/gemini-pro-latest" prompt]
  /\ Spec.summarizer_called (calls (scrape_article_text E url)) = false.
Proof.
  intros prompt Hj Hl Hs Hne Hk Hg Ht.
  assert (Hp : prompt_for article = prompt) by reflexivity.
  unfold result, calls.
  rewrite (summarize_run E req items url article Hj Hl Hs). cbv zeta.
  rewrite Hne, Hk, Hp. unfold model_name_to_use. rewrite Hg, Ht.
  repeat split.
  now destruct (scrape_article_text_returns E url []) as (s & _ & _ & Hc & _).
Qed.

Lemma summarize_success_witness :
  result (summarize (serving (Some "key") two_paragraphs) (post article_url))
  = Returns (JObj [("summary", JStr "* a * b * c")], 200%Z).
Proof.
  exact (proj1 (summarize_success (serving (Some "key") two_paragraphs)
                  (post article_url) [("url", article_url)] article_url
                  "Hello world. Second paragraph."
                  {| text := Returns "* a * b * c" |} "* a * b * c"
                  eq_refl eq_refl eq_refl eq_refl eq_refl eq_refl eq_refl)).
Defined.

(** ** C8 *)

(** C8: for every URL and whatever is fetched, [scrape_article_text]
    returns a text of at most 1500 whitespace-delimited words. *)
Theorem scrape_article_text_word_bound (E : env) (url : json) :
  exists article,
    result (scrape_article_text E url) = Returns article /\
    Spec.word_count article <= 1500.
Proof.
  destruct (scrape_article_text_returns E url []) as (s & Hs & _ & _ & Hw).
  now exists s.
Qed.

(** ** C9 *)



(** ** C10 *)

(** C10: a body whose ["url"] is the empty string passes validation; the
    handler goes on to fetch the empty URL, and when that fetch fails the
    answer is 400 with [{"error": "Could not scrape text from URL"}]. *)
Theorem summarize_empty_url (E : env) (req : request)
    (items : list (string * json)) (e : exn) :
  get_json req = Returns (JObj items) ->
  Py.lookup "url" items = Some (JStr "") ->
  requests_get E (JStr "") = Raises e ->
  result (no_url (JObj items)) = Returns false /\
  run (summarize E req)
  = (Returns (JObj [("error", JStr "Could not scrape text from URL")], 400%Z),
     [HttpGet (JStr "") "Mozilla/5.0" 10]).
Proof.
  intros Hj Hl Hr. split.
  - unfold result, run, no_url.
    assert (Ht : Py.truthy (JObj items) = true)
      by (destruct items; [discriminate | reflexivity]).
    rewrite Ht. simpl. unfold bind, lift, ret. simpl. now rewrite Hl.
  - assert (Hs : scrape_article_text E (JStr "") []
                 = (Returns "", [HttpGet (JStr "") "Mozilla/5.0" 10])).
    { rewrite scrape_article_text_run. cbv zeta. now rewrite Hr. }
    assert (Hres : result (scrape_article_text E (JStr "")) = Returns "")
      by (unfold result, run; now rewrite Hs).
    rewrite (summarize_run E req items (JStr "") "" Hj Hl Hres). cbv zeta.
    simpl. unfold calls, run. now rewrite Hs.
Qed.

Lemma summarize_empty_url_witness :
  result (no_url (JObj [("url", JStr "")])) = Returns false /\
  run (summarize (no_scheme (Some "key")) (post (JStr "")))
  = (Returns (JObj [("error", JStr "Could not scrape text from URL")], 400%Z),
     [HttpGet (JStr "") "Mozilla/5.0" 10]).
Proof.
  exact (summarize_empty_url (no_scheme (Some "key")) (post (JStr ""))
           [("url", JStr "")] MissingSchema eq_refl eq_refl eq_refl).
Defined.

(** * Further properties of [main.py] *)

(** ** Blank text and the words of a page *)

Module TextFacts.

Import PyStr Text.

Lemma blank_append (a b : string) :
  blank (a ++ b)%string = blank a && blank b.
Proof.
  induction a as [|c a IH]; simpl; [reflexivity |].
  now rewrite IH, andb_assoc.
Qed.

Lemma blank_empty (s : string) : is_empty s = true -> blank s = true.
Proof. destruct s; [reflexivity | discriminate]. Qed.

Lemma blank_lstrip (s : string) : blank (lstrip s) = blank s.
Proof.
  induction s as [|c s IH]; simpl; [reflexivity |].
  destruct (is_space c) eqn:Hc; simpl; [exact IH | now rewrite Hc].
Qed.

Lemma blank_rstrip (s : string) : blank (rstrip s) = blank s.
Proof.
  induction s as [|c s IH]; simpl; [reflexivity |].
  destruct (rstrip s) as [|x y] eqn:Hr.
  - simpl in IH. rewrite <- IH, andb_true_r.
    now destruct (is_space c) eqn:Hc; simpl; rewrite ?Hc.
  - change (blank (String c (String x y)))
      with (is_space c && blank (String x y)). now rewrite IH.
Qed.

Lemma blank_strip (s : string) : blank (strip s) = blank s.
Proof. unfold strip. now rewrite blank_rstrip, blank_lstrip. Qed.

Lemma blank_join (sep : string) (l : list string) :
  blank sep = true -> blank (join sep l) = forallb blank l.
Proof.
  intros Hsep. induction l as [|x l IH]; [reflexivity |].
  destruct l as [|y l].
  - simpl. now rewrite andb_true_r.
  - change (join sep (x :: y :: l)) with (x ++ sep ++ join sep (y :: l))%string.
    rewrite !blank_append, Hsep, IH. reflexivity.
Qed.

(** [split] finds no word exactly in blank text. *)
Lemma split_from_nil (s acc : string) :
  match split_from acc s with
  | [] => is_empty acc && blank s
  | _ :: _ => negb (is_empty acc && blank s)
  end = true.
Proof.
  revert acc. induction s as [|c s IH]; intros acc; simpl.
  - destruct (is_empty acc); reflexivity.
  - destruct (is_space c) eqn:Hc; simpl.
    + destruct (is_empty acc) eqn:He; [|reflexivity].
      specialize (IH ""). simpl in IH. exact IH.
    + specialize (IH (acc ++ String c "")%string).
      rewrite PyStrFacts.is_empty_append_char in IH. simpl in IH.
      rewrite andb_false_r. simpl.
      now destruct (split_from (acc ++ String c "") s).
Qed.

Lemma split_nil_blank (s : string) :
  match split s with [] => true | _ :: _ => false end = blank s.
Proof.
  pose proof (split_from_nil s "") as H. unfold split. simpl in H.
  destruct (split_from "" s); [now rewrite H |].
  apply negb_true_iff in H. now rewrite H.
Qed.

(** A space between two texts keeps their words apart and adds none. *)
Lemma split_from_space (a b acc : string) :
  split_from acc (a ++ String " " b)%string = split_from acc a ++ split b.
Proof.
  revert acc. induction a as [|c a IH]; intros acc; simpl.
  - unfold split. now destruct (is_empty acc).
  - destruct (is_space c).
    + destruct (is_empty acc); [apply IH | simpl; f_equal; apply IH].
    + apply IH.
Qed.

Lemma split_join_texts (l : list string) :
  split (join " " l) = flat_map split l.
Proof.
  induction l as [|x l IH]; [reflexivity |].
  destruct l as [|y l].
  - simpl. now rewrite app_nil_r.
  - change (join " " (x :: y :: l)) with (x ++ String " " (join " " (y :: l)))%string.
    unfold split at 1. rewrite split_from_space. fold (split x).
    now rewrite IH.
Qed.

(** A joined list of words is empty only when there is no word. *)
Lemma join_words_empty (ws : list string) :
  Forall (fun w => is_word w = true) ws ->
  is_empty (join " " ws) = match ws with [] => true | _ :: _ => false end.
Proof.
  intros H. destruct ws as [|w ws]; [reflexivity |].
  inversion H as [|? ? Hw _]; subst.
  apply PyStrFacts.is_word_inv in Hw as [Hne _].
  destruct w; [discriminate |]. now destruct ws.
Qed.

Lemma blank_get_text_strip (n : Bs4.node) :
  blank (Bs4.get_text_strip n) = blank_node n.
Proof.
  unfold Bs4.get_text_strip, blank_node.
  rewrite blank_join by reflexivity.
  induction (Bs4.strings n) as [|x l IH]; [reflexivity |].
  simpl. destruct (is_empty (strip x)) eqn:He; simpl.
  - rewrite IH, <- (blank_strip x), (blank_empty _ He). reflexivity.
  - now rewrite IH, blank_strip.
Qed.

End TextFacts.

(** ** The extractor, lines 60 to 65, once more *)

Lemma flat_map_of_map {A B C} (f : A -> B) (g : B -> list C) (l : list A) :
  flat_map g (map f l) = flat_map (fun x => g (f x)) l.
Proof. induction l as [|x l IH]; simpl; [reflexivity | now rewrite IH]. Qed.

Lemma forallb_of_map {A B} (f : A -> B) (g : B -> bool) (l : list A) :
  forallb g (map f l) = forallb (fun x => g (f x)) l.
Proof. induction l as [|x l IH]; simpl; [reflexivity | now rewrite IH]. Qed.

(** X1: the article text is in normal form: splitting it into words and
    joining them with single spaces gives it back, and normalising its
    whitespace changes nothing (single spaces only, none at the ends). *)
Theorem article_text_of_normal_form (soup : Bs4.soup) :
  PyStr.join " " (PyStr.split (article_text_of soup)) = article_text_of soup /\
  Spec.collapse_ws (article_text_of soup) = article_text_of soup.
Proof.
  assert (H : PyStr.join " " (PyStr.split (article_text_of soup))
              = article_text_of soup)
    by (now rewrite article_text_of_split).
  split; [exact H |]. now rewrite <- PyStrFacts.join_split.
Qed.

(** X2: the article text is empty exactly when no text node inside a
    [<p>] element holds anything but whitespace. *)
Theorem article_text_of_empty (soup : Bs4.soup) :
  PyStr.is_empty (article_text_of soup)
  = forallb Text.blank_node (Bs4.find_all "p" soup).
Proof.
  unfold article_text_of.
  rewrite TextFacts.join_words_empty
    by apply PyStrFacts.Forall_firstn, PyStrFacts.split_words.
  pose proof (TextFacts.split_nil_blank (paragraph_text soup)) as Hb.
  assert (Hf : match firstn max_words (PyStr.split (paragraph_text soup)) with
               | [] => true | _ :: _ => false end
               = match PyStr.split (paragraph_text soup) with
                 | [] => true | _ :: _ => false end)
    by (now destruct (PyStr.split (paragraph_text soup))).
  rewrite Hf, Hb. unfold paragraph_text.
  rewrite TextFacts.blank_join by reflexivity.
  rewrite forallb_of_map.
  induction (Bs4.find_all "p" soup) as [|p ps IH]; simpl; [reflexivity |].
  now rewrite IH, TextFacts.blank_get_text_strip.
Qed.

(** X3: the words of the article text are the first 1500 of the words of
    the paragraphs taken one paragraph after the other: joining the
    paragraphs neither merges nor splits a word. *)
Theorem article_text_of_words (soup : Bs4.soup) :
  PyStr.split (article_text_of soup) = firstn 1500 (Text.paragraph_words soup).
Proof.
  rewrite article_text_of_split. unfold paragraph_text, Text.paragraph_words.
  now rewrite TextFacts.split_join_texts, flat_map_of_map.
Qed.

(** ** The scraper and the handler on every input *)

Section HandlerCases.

Variable E : env.

(** The calls of the scraper: one fetch, then at most one parse. *)
Lemma scrape_article_text_calls (url : json) :
  calls (scrape_article_text E url) = [HttpGet url "Mozilla/5.0" 10] \/
  exists markup,
    calls (scrape_article_text E url)
    = [HttpGet url "Mozilla/5.0" 10; ParseHtml markup "html.parser"].
Proof.
  unfold calls, run. rewrite scrape_article_text_run. cbv zeta.
  destruct (requests_get E url) as [r|e]; [|now left].
  destruct ((400 <=? status_code r) && (status_code r <? 600))%Z; [now left |].
  right. exists (content r).
  now destruct (BeautifulSoup E (content r)).
Qed.

Lemma scrape_failure_empty (url : json) :
  Spec.scrape_failure E url ->
  result (scrape_article_text E url) = Returns "".
Proof.
  unfold result, run. rewrite scrape_article_text_run. cbv zeta.
  intros [[e He | r Hr Hc] | r e Hr Hp].
  - now rewrite He.
  - rewrite Hr.
    replace ((400 <=? status_code r) && (status_code r <? 600))%Z
      with true by (symmetry; apply andb_true_iff; split; lia).
    reflexivity.
  - rewrite Hr, Hp. now destruct (_ && _).
Qed.

(** The handler on a body that is not an object. *)
Lemma summarize_other_body (req : request) (data : json) :
  get_json req = Returns data ->
  match data with JObj _ => False | _ => True end ->
  run (summarize E req) =
  (Returns
     (match data with
      | JBool true => (error_body "An internal server error occurred", 500%Z)
      | JNum n =>
          if (n =? 0)%Z then (error_body "No URL provided", 400%Z)
          else (error_body "An internal server error occurred", 500%Z)
      | JStr s =>
          if PyStr.contains "url" s
          then (error_body "An internal server error occurred", 500%Z)
          else (error_body "No URL provided", 400%Z)
      | JArr l =>
          if existsb (Py.is_str "url") l
          then (error_body "An internal server error occurred", 500%Z)
          else (error_body "No URL provided", 400%Z)
      | _ => (error_body "No URL provided", 400%Z)
      end), []).
Proof.
  intros Hj Hd.
  unfold run, summarize, try_except, bind, lift, no_url. rewrite Hj.
  destruct data as [|[|]|n|s|l|items]; try reflexivity; try contradiction.
  - simpl. now destruct (n =? 0)%Z.
  - destruct s as [|c s]; [reflexivity |].
    cbn -[PyStr.contains]. unfold bind, lift, ret. cbn -[PyStr.contains].
    now destruct (PyStr.contains "url" (String c s)).
  - destruct l as [|x l]; [reflexivity |].
    cbn -[existsb]. unfold bind, lift, ret. cbn -[existsb].
    now destruct (existsb (Py.is_str "url") (x :: l)).
Qed.

(** Every run of the handler is of one of three kinds: the body is not an
    object, the body gives no ["url"], or the scraper ran on the URL. *)
Lemma summarize_cases (req : request) :
  (run (summarize E req)
   = (Returns (error_body "An internal server error occurred", 500%Z), []))
  \/
  (run (summarize E req) = (Returns (error_body "No URL provided", 400%Z), []))
  \/
  (exists items url article,
     get_json req = Returns (JObj items) /\
     Py.lookup "url" items = Some url /\
     result (scrape_article_text E url) = Returns article).
Proof.
  destruct (get_json req) as [data|e] eqn:Hj.
  - destruct data as [| | | | |items] eqn:Hd.
    6: { destruct (Py.lookup "url" items) as [url|] eqn:Hl.
         - right; right.
           destruct (scrape_article_text_returns E url []) as (a & Ha & _).
           now exists items, url, a.
         - right; left. apply (summarize_omits_url E req (JObj items) Hj).
           unfold Spec.omits_url. rewrite Hl. apply orb_true_r. }
    all: rewrite (summarize_other_body req _ Hj I).
    + now right; left.
    + destruct b; [now left | now right; left].
    + destruct (n =? 0)%Z; [now right; left | now left].
    + destruct (PyStr.contains "url" s); [now left | now right; left].
    + destruct (existsb (Py.is_str "url") items); [now left | now right; left].
  - left. apply (summarize_get_json_raises E req e Hj).
Qed.

End HandlerCases.

Section HandlerOutcomes.

Variable E : env.

(** The scraper made one fetch and returned nothing, or went on to parse. *)
Lemma scrape_article_text_shape (url : json) :
  (result (scrape_article_text E url) = Returns "" /\
   calls (scrape_article_text E url) = [HttpGet url "Mozilla/5.0" 10]) \/
  (exists markup,
     calls (scrape_article_text E url)
     = [HttpGet url "Mozilla/5.0" 10; ParseHtml markup "html.parser"]).
Proof.
  unfold result, calls, run. rewrite scrape_article_text_run. cbv zeta.
  destruct (requests_get E url) as [r|e]; [|now left].
  destruct ((400 <=? status_code r) && (status_code r <? 600))%Z; [now left |].
  right. exists (content r).
  now destruct (BeautifulSoup E (content r)).
Qed.

(** The four ways the handler ends once the scraper has run. *)
Lemma summarize_scraped (req : request) (items : list (string * json))
    (url : json) (article : string) :
  get_json req = Returns (JObj items) ->
  Py.lookup "url" items = Some url ->
  result (scrape_article_text E url) = Returns article ->
  let t := calls (scrape_article_text E url) in
  let gen := GenerateContent model_name_to_use (prompt_for article) in
  (PyStr.is_empty article = true /\
   run (summarize E req)
   = (Returns (error_body "Could not scrape text from URL", 400%Z), t))
  \/
  (PyStr.is_empty article = false /\
   key_missing (gemini_api_key E) = true /\
   run (summarize E req)
   = (Returns (error_body "AI API key not configured on server", 500%Z), t))
  \/
  (PyStr.is_empty article = false /\
   key_missing (gemini_api_key E) = false /\
   ((exists e,
       generate_content E model_name_to_use (prompt_for article) = Raises e) \/
    (exists g e,
       generate_content E model_name_to_use (prompt_for article) = Returns g /\
       text g = Raises e)) /\
   run (summarize E req)
   = (Returns (error_body "An internal server error occurred", 500%Z),
      t ++ [gen]))
  \/
  (PyStr.is_empty article = false /\
   key_missing (gemini_api_key E) = false /\
   exists g summary,
     generate_content E model_name_to_use (prompt_for article) = Returns g /\
     text g = Returns summary /\
     run (summarize E req) = (Returns (summary_body summary, 200%Z), t ++ [gen])).
Proof.
  intros Hj Hl Hs t gen.
  rewrite (summarize_run E req items url article Hj Hl Hs). cbv zeta.
  fold t. fold gen.
  destruct (PyStr.is_empty article); [now left |].
  destruct (key_missing (gemini_api_key E)); [now right; left |].
  destruct (generate_content E model_name_to_use (prompt_for article))
    as [g|e] eqn:Hg.
  - destruct (text g) as [s|e] eqn:Ht.
    + right; right; right. repeat split. now exists g, s.
    + right; right; left. repeat split. right. now exists g, e.
  - right; right; left. repeat split. left. now exists e.
Qed.

Lemma summarizer_called_app (t : trace) (ev : event) :
  Spec.summarizer_called (t ++ [ev])
  = Spec.summarizer_called t || Spec.is_generate ev.
Proof.
  unfold Spec.summarizer_called. rewrite existsb_app. simpl.
  now rewrite orb_false_r.
Qed.

Lemma scrape_never_generates (url : json) :
  Spec.summarizer_called (calls (scrape_article_text E url)) = false.
Proof.
  now destruct (scrape_article_text_returns E url []) as (s & _ & _ & Hc & _).
Qed.

End HandlerOutcomes.

(** ** The handler: responses and calls *)

(** X4: the handler answers every request, whatever the body and whatever
    the outside world does, with one of five responses: 200 with a
    summary, 400 with one of the two fixed messages, or 500 with one of
    the two fixed messages; no exception leaves it and no exception text
    reaches the client. *)
Theorem summarize_responses (E : env) (req : request) :
  exists body status,
    result (summarize E req) = Returns (body, status) /\
    ((status = 200%Z /\ exists summary, body = JObj [("summary", JStr summary)])
     \/ (status = 400%Z /\
         (body = JObj [("error", JStr "No URL provided")] \/
          body = JObj [("error", JStr "Could not scrape text from URL")]))
     \/ (status = 500%Z /\
         (body = JObj [("error", JStr "AI API key not configured on server")] \/
          body = JObj [("error", JStr "An internal server error occurred")]))).
Proof.
  unfold result.
  destruct (summarize_cases E req) as [H | [H | (items & url & a & Hj & Hl & Hs)]].
  - rewrite H. do 2 eexists. split; [reflexivity |]. right; right. auto.
  - rewrite H. do 2 eexists. split; [reflexivity |]. right; left. auto.
  - destruct (summarize_scraped E req items url a Hj Hl Hs)
      as [[_ H] | [(_ & _ & H) | [(_ & _ & _ & H) | (_ & _ & g & s & _ & _ & H)]]];
      rewrite H; do 2 eexists; (split; [reflexivity |]).
    + right; left. auto.
    + right; right. auto.
    + right; right. auto.
    + left. split; [reflexivity |]. now exists s.
Qed.

(** X5: when the model cannot deliver (the call raises, or reading the
    text of its answer raises) the handler answers 500 with the generic
    message, after exactly one call to the model and without a retry. *)
Theorem summarize_upstream_failure (E : env) (req : request)
    (items : list (string * json)) (url : json) (article : string) :
  get_json req = Returns (JObj items) ->
  Py.lookup "url" items = Some url ->
  result (scrape_article_text E url) = Returns article ->
  PyStr.is_empty article = false ->
  key_missing (gemini_api_key E) = false ->
  ((exists e,
      generate_content E "models/gemini-pro-latest" (prompt_for article)
      = Raises e) \/
   (exists g e,
      generate_content E "models/gemini-pro-latest" (prompt_for article)
      = Returns g /\ text g = Raises e)) ->
  result (summarize E req)
  = Returns (JObj [("error", JStr "An internal server error occurred")], 500%Z)
  /\ calls (summarize E req)
     = calls (scrape_article_text E url)
         ++ [GenerateContent "models/gemini-pro-latest" (prompt_for article)].
Proof.
  intros Hj Hl Hs Hne Hk Hup. unfold result, calls.
  destruct (summarize_scraped E req items url article Hj Hl Hs)
    as [[He _] | [(_ & Hk' & _) | [(_ & _ & _ & H) | (_ & _ & g & s & Hg & Ht & _)]]].
  - congruence.
  - congruence.
  - now rewrite H.
  - unfold model_name_to_use in Hg.
    destruct Hup as [[e He] | (g' & e & Hg' & Ht')]; congruence.
Qed.

Lemma summarize_upstream_failure_witness :
  (result (summarize (Cases.model_down two_paragraphs) (post article_url))
   = Returns (JObj [("error", JStr "An internal server error occurred")], 500%Z)
   /\ calls (summarize (Cases.model_down two_paragraphs) (post article_url))
      = calls (scrape_article_text (Cases.model_down two_paragraphs) article_url)
          ++ [GenerateContent "models/gemini-pro-latest"
                (prompt_for "Hello world. Second paragraph.")])
  /\
  (result (summarize (Cases.model_blocked two_paragraphs) (post article_url))
   = Returns (JObj [("error", JStr "An internal server error occurred")], 500%Z)
   /\ calls (summarize (Cases.model_blocked two_paragraphs) (post article_url))
      = calls (scrape_article_text (Cases.model_blocked two_paragraphs)
                 article_url)
          ++ [GenerateContent "models/gemini-pro-latest"
                (prompt_for "Hello world. Second paragraph.")]).
Proof.
  split.
  - exact (summarize_upstream_failure (Cases.model_down two_paragraphs)
             (post article_url) [("url", article_url)] article_url
             "Hello world. Second paragraph."
             eq_refl eq_refl eq_refl eq_refl eq_refl
             (or_introl (ex_intro _ (OtherError "ResourceExhausted") eq_refl))).
  - exact (summarize_upstream_failure (Cases.model_blocked two_paragraphs)
             (post article_url) [("url", article_url)] article_url
             "Hello world. Second paragraph."
             eq_refl eq_refl eq_refl eq_refl eq_refl
             (or_intror
                (ex_intro _ {| text := Raises ValueError |}
                   (ex_intro _ ValueError (conj eq_refl eq_refl))))).
Defined.

(** X6: a 200 is only ever answered with a summary that the model
    produced for this request: the body is an object with a ["url"], the
    scraped text is not empty, a credential is configured, and the summary
    is the text of the model's answer to the prompt for that text. *)
Theorem summarize_ok_only_with_summary (E : env) (req : request) (body : json) :
  result (summarize E req) = Returns (body, 200%Z) ->
  key_missing (gemini_api_key E) = false /\
  exists items url article g summary,
    get_json req = Returns (JObj items) /\
    Py.lookup "url" items = Some url /\
    result (scrape_article_text E url) = Returns article /\
    PyStr.is_empty article = false /\
    generate_content E "models/gemini-pro-latest" (prompt_for article)
    = Returns g /\
    text g = Returns summary /\
    body = JObj [("summary", JStr summary)].
Proof.
  unfold result. intros H.
  destruct (summarize_cases E req) as [H' | [H' | (items & url & a & Hj & Hl & Hs)]].
  - rewrite H' in H. discriminate.
  - rewrite H' in H. discriminate.
  - destruct (summarize_scraped E req items url a Hj Hl Hs)
      as [[_ H'] | [(_ & _ & H') | [(_ & _ & _ & H') | (Hne & Hk & g & s & Hg & Ht & H')]]];
      rewrite H' in H; try discriminate.
    split; [exact Hk |]. exists items, url, a, g, s.
    repeat split; auto. simpl in H. now injection H as <-.
Qed.

Lemma summarize_ok_only_with_summary_witness :
  key_missing (gemini_api_key (serving (Some "key") two_paragraphs)) = false /\
  exists items url article g summary,
    get_json (post article_url) = Returns (JObj items) /\
    Py.lookup "url" items = Some url /\
    result (scrape_article_text (serving (Some "key") two_paragraphs) url)
    = Returns article /\
    PyStr.is_empty article = false /\
    generate_content (serving (Some "key") two_paragraphs)
      "models/gemini-pro-latest" (prompt_for article) = Returns g /\
    text g = Returns summary /\
    JObj [("summary", JStr "* a * b * c")] = JObj [("summary", JStr summary)].
Proof.
  exact (summarize_ok_only_with_summary (serving (Some "key") two_paragraphs)
           (post article_url) (JObj [("summary", JStr "* a * b * c")]) eq_refl).
Defined.

(** X7: a request causes at most one fetch, then at most one parse, then
    at most one call to the model, in that order and never repeated; the
    fetch is for the ["url"] of the body, with the User-Agent
    [Mozilla/5.0] and a timeout of 10 seconds, and the model is only
    called after a parse. *)
Theorem summarize_calls (E : env) (req : request) :
  calls (summarize E req) = [] \/
  exists items url,
    get_json req = Returns (JObj items) /\
    Py.lookup "url" items = Some url /\
    (calls (summarize E req) = [HttpGet url "Mozilla/5.0" 10] \/
     (exists markup,
        calls (summarize E req)
        = [HttpGet url "Mozilla/5.0" 10; ParseHtml markup "html.parser"]) \/
     (exists markup article,
        calls (summarize E req)
        = [HttpGet url "Mozilla/5.0" 10; ParseHtml markup "html.parser";
           GenerateContent "models/gemini-pro-latest" (prompt_for article)])).
Proof.
  unfold calls at 1.
  destruct (summarize_cases E req) as [H | [H | (items & url & a & Hj & Hl & Hs)]].
  - left. now rewrite H.
  - left. now rewrite H.
  - right. exists items, url. split; [exact Hj |]. split; [exact Hl |].
    unfold calls at 1 2 3.
    destruct (scrape_article_text_shape E url) as [[He Hc] | [markup Hc]].
    + left. rewrite He in Hs. injection Hs as <-.
      destruct (summarize_scraped E req items url "" Hj Hl He)
        as [[_ H] | [(Hf & _) | [(Hf & _) | (Hf & _)]]]; try discriminate.
      rewrite H. exact Hc.
    + right.
      destruct (summarize_scraped E req items url a Hj Hl Hs)
        as [[_ H] | [(_ & _ & H) | [(_ & _ & _ & H) | (_ & _ & g & s & _ & _ & H)]]];
        rewrite H; simpl; rewrite Hc.
      * left. now exists markup.
      * left. now exists markup.
      * right. now exists markup, a.
      * right. now exists markup, a.
Qed.

(** X8: the model is called only when a credential is configured and the
    scraped text is not empty; the call is then the last one of the
    request, names the model [models/gemini-pro-latest], and carries the
    prompt built from an article text of at most 1500 words. *)
Theorem summarizer_called_when (E : env) (req : request) :
  Spec.summarizer_called (calls (summarize E req)) = true ->
  key_missing (gemini_api_key E) = false /\
  exists items url article,
    get_json req = Returns (JObj items) /\
    Py.lookup "url" items = Some url /\
    result (scrape_article_text E url) = Returns article /\
    PyStr.is_empty article = false /\
    Spec.word_count article <= 1500 /\
    calls (summarize E req)
    = calls (scrape_article_text E url)
        ++ [GenerateContent "models/gemini-pro-latest" (prompt_for article)].
Proof.
  unfold calls at 1 2. intros Hcalled.
  destruct (summarize_cases E req) as [H | [H | (items & url & a & Hj & Hl & Hs)]].
  - rewrite H in Hcalled. discriminate.
  - rewrite H in Hcalled. discriminate.
  - assert (Hw : Spec.word_count a <= 1500).
    { destruct (scrape_article_text_returns E url []) as (s & Hs' & _ & _ & Hw).
      rewrite Hs in Hs'. now injection Hs' as <-. }
    pose proof (scrape_never_generates E url) as Hno.
    destruct (summarize_scraped E req items url a Hj Hl Hs)
      as [[_ H] | [(_ & _ & H) | [(Hne & Hk & _ & H) | (Hne & Hk & g & s & _ & _ & H)]]];
      rewrite H in Hcalled |- *; simpl in Hcalled; try congruence;
      (split; [exact Hk |]); exists items, url, a; repeat split; auto.
Qed.

Lemma summarizer_called_when_witness :
  key_missing (gemini_api_key (Cases.model_down two_paragraphs)) = false /\
  exists items url article,
    get_json (post article_url) = Returns (JObj items) /\
    Py.lookup "url" items = Some url /\
    result (scrape_article_text (Cases.model_down two_paragraphs) url)
    = Returns article /\
    PyStr.is_empty article = false /\
    Spec.word_count article <= 1500 /\
    calls (summarize (Cases.model_down two_paragraphs) (post article_url))
    = calls (scrape_article_text (Cases.model_down two_paragraphs) url)
        ++ [GenerateContent "models/gemini-pro-latest" (prompt_for article)].
Proof.
  exact (summarizer_called_when (Cases.model_down two_paragraphs)
           (post article_url) eq_refl).
Defined.

(** X9: when the parser raises on the fetched page, as when the fetch
    itself fails, the request is answered 400 with the scrape-error
    message and the model is not called. *)
Theorem summarize_scrape_failure (E : env) (req : request)
    (items : list (string * json)) (url : json) :
  get_json req = Returns (JObj items) ->
  Py.lookup "url" items = Some url ->
  Spec.scrape_failure E url ->
  result (summarize E req)
  = Returns (JObj [("error", JStr "Could not scrape text from URL")], 400%Z) /\
  Spec.summarizer_called (calls (summarize E req)) = false.
Proof.
  intros Hj Hl Hf. pose proof (scrape_failure_empty E url Hf) as Hs.
  unfold result, calls.
  rewrite (summarize_run E req items url "" Hj Hl Hs). cbv zeta. simpl.
  split; [reflexivity | apply scrape_never_generates].
Qed.

Lemma summarize_scrape_failure_witness :
  result (summarize (unparsable (Some "key")) (post article_url))
  = Returns (JObj [("error", JStr "Could not scrape text from URL")], 400%Z) /\
  Spec.summarizer_called
    (calls (summarize (unparsable (Some "key")) (post article_url))) = false.
Proof.
  exact (summarize_scrape_failure (unparsable (Some "key")) (post article_url)
           [("url", article_url)] article_url eq_refl eq_refl
           (Spec.parser_error (unparsable (Some "key")) article_url ok_response
              (OtherError "ParserRejectedMarkup") eq_refl eq_refl)).
Defined.

(** X10: a page that has [<p>] elements but only whitespace in their
    text nodes is answered like a page without paragraphs: 400 with the
    scrape-error message, and the model is not called. *)
Theorem summarize_blank_page (E : env) (req : request)
    (items : list (string * json)) (url : json) (r : http_response)
    (soup : Bs4.soup) :
  get_json req = Returns (JObj items) ->
  Py.lookup "url" items = Some url ->
  requests_get E url = Returns r ->
  BeautifulSoup E (content r) = Returns soup ->
  forallb Text.blank_node (Bs4.find_all "p" soup) = true ->
  result (summarize E req)
  = Returns (JObj [("error", JStr "Could not scrape text from URL")], 400%Z) /\
  Spec.summarizer_called (calls (summarize E req)) = false.
Proof.
  intros Hj Hl Hr Hp Hb.
  assert (Ha : article_text_of soup = "").
  { apply PyStrFacts.is_empty_true. now rewrite article_text_of_empty. }
  assert (Hs : result (scrape_article_text E url) = Returns "").
  { unfold result, run. rewrite scrape_article_text_run. cbv zeta.
    rewrite Hr, Hp, Ha. now destruct (_ && _). }
  unfold result, calls.
  rewrite (summarize_run E req items url "" Hj Hl Hs). cbv zeta. simpl.
  split; [reflexivity | apply scrape_never_generates].
Qed.

Lemma summarize_blank_page_witness :
  result (summarize (serving (Some "key") Cases.blank_paragraphs)
            (post article_url))
  = Returns (JObj [("error", JStr "Could not scrape text from URL")], 400%Z) /\
  Spec.summarizer_called
    (calls (summarize (serving (Some "key") Cases.blank_paragraphs)
              (post article_url))) = false.
Proof.
  exact (summarize_blank_page (serving (Some "key") Cases.blank_paragraphs)
           (post article_url) [("url", article_url)] article_url ok_response
           Cases.blank_paragraphs eq_refl eq_refl eq_refl eq_refl eq_refl).
Defined.

(** X11: a non-empty text comes out of [scrape_article_text] only when
    the fetch returned with a status outside 400..599 and the parser
    returned a page; the text is then the extractor's text of that page,
    and some text node inside a [<p>] holds more than whitespace. *)
Theorem scrape_article_text_nonempty (E : env) (url : json) (article : string) :
  result (scrape_article_text E url) = Returns article ->
  PyStr.is_empty article = false ->
  exists r soup,
    requests_get E url = Returns r /\
    (status_code r < 400 \/ 600 <= status_code r)%Z /\
    BeautifulSoup E (content r) = Returns soup /\
    article = article_text_of soup /\
    forallb Text.blank_node (Bs4.find_all "p" soup) = false.
Proof.
  unfold result, run. rewrite scrape_article_text_run. cbv zeta.
  destruct (requests_get E url) as [r|e] eqn:Hr; simpl.
  2: { intros H. injection H as <-. discriminate. }
  destruct ((400 <=? status_code r) && (status_code r <? 600))%Z eqn:Hc; simpl.
  { intros H. injection H as <-. discriminate. }
  destruct (BeautifulSoup E (content r)) as [soup|e] eqn:Hp; simpl.
  2: { intros H. injection H as <-. discriminate. }
  intros H Hne. injection H as <-. exists r, soup.
  repeat split; auto.
  - apply andb_false_iff in Hc. lia.
  - exact (eq_trans (eq_sym (article_text_of_empty soup)) Hne).
Qed.

Lemma scrape_article_text_nonempty_witness :
  exists r soup,
    requests_get (serving None two_paragraphs) article_url = Returns r /\
    (status_code r < 400 \/ 600 <= status_code r)%Z /\
    BeautifulSoup (serving None two_paragraphs) (content r) = Returns soup /\
    "Hello world. Second paragraph." = article_text_of soup /\
    forallb Text.blank_node (Bs4.find_all "p" soup) = false.
Proof.
  exact (scrape_article_text_nonempty (serving None two_paragraphs) article_url
           "Hello world. Second paragraph." eq_refl eq_refl).
Defined.

(** X12: a body that parses to something other than an object never
    causes a fetch.  It is answered 500 with the generic message when it
    is [true], a non-zero number, a string that contains [url] or an array
    that contains the string ["url"] (the validation or the subscript
    raises a [TypeError]), and 400 with [No URL provided] otherwise. *)
Theorem summarize_non_object_body (E : env) (req : request) (data : json) :
  get_json req = Returns data ->
  (forall items, data <> JObj items) ->
  calls (summarize E req) = [] /\
  result (summarize E req)
  = Returns
      (if match data with
          | JBool b => b
          | JNum n => negb (n =? 0)%Z
          | JStr s => PyStr.contains "url" s
          | JArr l => existsb (Py.is_str "url") l
          | _ => false
          end
       then (JObj [("error", JStr "An internal server error occurred")], 500%Z)
       else (JObj [("error", JStr "No URL provided")], 400%Z)).
Proof.
  intros Hj Hd.
  assert (Hd' : match data with JObj _ => False | _ => True end)
    by (destruct data; auto; now apply (Hd items)).
  unfold calls, result. rewrite (summarize_other_body E req data Hj Hd').
  split; [reflexivity |]. simpl.
  destruct data as [|[|]|n|s|l|items]; try reflexivity.
  now destruct (n =? 0)%Z.
Qed.

Lemma summarize_non_object_body_witness :
  (calls (summarize (serving (Some "key") two_paragraphs)
            (post_json (JArr [JStr "url"]))) = [] /\
   result (summarize (serving (Some "key") two_paragraphs)
             (post_json (JArr [JStr "url"])))
   = Returns (JObj [("error", JStr "An internal server error occurred")], 500%Z))
  /\
  (calls (summarize (serving (Some "key") two_paragraphs)
            (post_json (JStr "http://example.com/article"))) = [] /\
   result (summarize (serving (Some "key") two_paragraphs)
             (post_json (JStr "http://example.com/article")))
   = Returns (JObj [("error", JStr "No URL provided")], 400%Z)).
Proof.
  split.
  - refine (summarize_non_object_body (serving (Some "key") two_paragraphs)
              (post_json (JArr [JStr "url"])) (JArr [JStr "url"]) eq_refl _).
    intros items H. discriminate H.
  - refine (summarize_non_object_body (serving (Some "key") two_paragraphs)
              (post_json (JStr "http://example.com/article"))
              (JStr "http://example.com/article") eq_refl _).
    intros items H. discriminate H.
Defined.

(** ** Loading the module *)

Module StartupFacts.

Import Startup.

(** The loop prints the names of the models that support
    [generateContent], in the order listed, and raises nothing. *)
Lemma print_supported_run (ms : list model_info) (l : list log_entry) :
  print_supported ms l
  = (Returns tt,
     l ++ map (fun m => Print (" - " ++ model_name m))
              (filter supports_generation ms)).
Proof.
  revert l. induction ms as [|m ms IH]; intros l; simpl.
  - unfold wret. now rewrite app_nil_r.
  - unfold then_, wbind.
    destruct (supports_generation m); simpl.
    + unfold say. rewrite IH, <- app_assoc. reflexivity.
    + unfold wret. apply IH.
Qed.

End StartupFacts.

(** X13: without a credential (the variable unset or empty) loading the
    module makes no call to the provider, neither [configure] nor
    [list_models]: it prints the warning, the heading and the note that
    the listing is skipped, and raises nothing. *)
Theorem load_without_key (key : option string) (P : Startup.provider) :
  key_missing key = true ->
  Startup.load key P
  = (Returns tt,
     [Startup.Print "Warning: GEMINI_API_KEY environment variable not set.";
      Startup.Print "Listing available Gemini models...";
      Startup.Print "Skipping model listing as API key is not set."]) /\
  existsb Startup.is_provider_call (snd (Startup.load key P)) = false.
Proof.
  intros Hk.
  assert (H : Startup.load key P
              = (Returns tt,
                 [Startup.Print Startup.no_key_warning;
                  Startup.Print "Listing available Gemini models...";
                  Startup.Print "Skipping model listing as API key is not set."])).
  { unfold Startup.load, Startup.list_available_models, Startup.configure_ai.
    rewrite Hk. destruct key as [k|]; [simpl in Hk; rewrite Hk |]; reflexivity. }
  split; [exact H | now rewrite H].
Qed.

Lemma load_without_key_witness :
  Startup.load (Some "") Startup.flaky
  = (Returns tt,
     [Startup.Print "Warning: GEMINI_API_KEY environment variable not set.";
      Startup.Print "Listing available Gemini models...";
      Startup.Print "Skipping model listing as API key is not set."]) /\
  existsb Startup.is_provider_call (snd (Startup.load (Some "") Startup.flaky))
  = false.
Proof. exact (load_without_key (Some "") Startup.flaky eq_refl). Defined.

(** X14: with a credential, loading the module raises nothing even when
    [configure] or the listing raises.  [configure] is called once with
    the credential; a failure of it is printed and the listing is still
    attempted; the names printed are those of the models that support
    [generateContent], in the order listed, up to the point where the
    listing ends or breaks off, and a break is printed last. *)
Theorem load_with_key (k : string) (P : Startup.provider) :
  PyStr.is_empty k = false ->
  Startup.load (Some k) P
  = (Returns tt,
     [Startup.Configure k]
       ++ match Startup.configure P k with
          | Returns _ => []
          | Raises e => [Startup.PrintExn "Error configuring Gemini: " e]
          end
       ++ [Startup.Print "Listing available Gemini models...";
           Startup.ListModels]
       ++ map (fun m => Startup.Print (" - " ++ Startup.model_name m))
              (filter Startup.supports_generation (Startup.listed P))
       ++ match Startup.listing_error P with
          | None => []
          | Some e => [Startup.PrintExn "Could not list models: " e]
          end).
Proof.
  intros Hk.
  unfold Startup.load, Startup.list_available_models, Startup.configure_ai.
  unfold key_missing. rewrite Hk. simpl negb. cbv iota.
  unfold Startup.then_, Startup.wbind, Startup.wtry, Startup.say,
    Startup.attempt. simpl app.
  destruct (Startup.configure P k) as [[]|e]; simpl app;
    rewrite StartupFacts.print_supported_run;
    destruct (Startup.listing_error P) as [e'|]; simpl;
    unfold Startup.wret; rewrite ?app_nil_r; try reflexivity;
    now rewrite <- ?app_assoc.
Qed.

Lemma load_with_key_witness :
  Startup.load (Some "key") Startup.flaky
  = (Returns tt,
     [Startup.Configure "key";
      Startup.PrintExn "Error configuring Gemini: "
        (OtherError "DefaultCredentialsError");
      Startup.Print "Listing available Gemini models...";
      Startup.ListModels;
      Startup.Print " - models/gemini-pro-latest";
      Startup.PrintExn "Could not list models: "
        (OtherError "ServiceUnavailable")]).
Proof. exact (load_with_key "key" Startup.flaky eq_refl). Defined.
